(** * Bookshelf API: the [BooksManager] resource store of [src/routes/Books.js]

    A shallow embedding of the class [BooksManager]: its payload validator,
    its query filter, the four private store operations and the four request
    handlers, followed by the properties of the written specification.

    Modelling conventions.
    - A JavaScript value held in a book field is one of the JSON primitives
      (the [Book] typedef of the source declares only string, number and
      boolean fields), [undefined], or a member inherited from
      [Object.prototype].
    - Numbers are IEEE 754 doubles, as the [spec_float] of the Standard
      Library; an integer written where a number is expected stands for the
      double of that value.  [StringToNumber] reads the whole grammar of
      numeric string literals and rounds to the nearest double;
      [numberToString] prints the shortest digits that read back.
    - Strings are sequences of code units below 256; [toLowerCase],
      [isWhiteSpace] and the comparison of strings are those of JavaScript
      on these code units.
    - A book (a plain JS object used as a record) is a [gmap string value].
    - The payload of a request is [null] (a request without body), a JSON
      object, or another JSON value.
    - The shelf (the private object [#_shelf]) is a list of key/record pairs
      in property-creation order, which is the order [Object.values] yields
      for keys that are not array indices; [nanoid] keys are 21 characters
      long and never are.
    - [nanoid()] and [new Date().toISOString()] are read from the
      environment: the handlers take the generated id and the clock readings
      as arguments, one argument per call in the source. *)

From Stdlib Require Import ZArith Ascii String List SpecFloat.
From stdpp Require Import gmap strings list fin_maps relations.

Local Open Scope string_scope.
Local Open Scope Z_scope.

(** ** JavaScript numbers *)

Abbreviation number := spec_float.

(** The double of an integer. *)
Definition ofZ (n : Z) : number := binary_normalize 53 1024 n 0 false.
Coercion ofZ : Z >-> spec_float.

(** The double that a triple of sign, mantissa and exponent denotes. *)
Definition canon (x : number) : number :=
  match x with
  | S754_finite s m e => binary_round 53 1024 s m e
  | _ => x
  end.

Definition isNaN (x : number) : bool :=
  match x with S754_nan => true | _ => false end.

Definition isZero (x : number) : bool :=
  match canon x with S754_zero _ => true | _ => false end.

(** [x < y] and [x === y] on numbers. *)
Definition numberLt (x y : number) : bool := SFltb (canon x) (canon y).
Definition numberEq (x y : number) : bool := SFeqb (canon x) (canon y).

(** The double nearest to [p / q], ties to even, for [0 <= p] and [0 < q],
    with the sign [s]. *)
Definition ofRational (s : bool) (p q : Z) : number :=
  if p =? 0 then S754_zero s
  else
    let '(mz, ez, lz) := SFdiv_core_binary 53 1024 p 0 q 0 in
    binary_round_aux 53 1024 s mz ez lz.

(** The double nearest to [d * 10^e]. *)
Definition ofDecimal (s : bool) (d e : Z) : number :=
  if 0 <=? e then ofRational s (d * 10 ^ e) 1 else ofRational s d (10 ^ (- e)).

Global Instance number_eq_dec : EqDecision number.
Proof. solve_decision. Defined.

(** ** JavaScript values *)

Inductive value : Type :=
| VUndefined
| VNull
| VBool (b : bool)
| VNumber (n : number)
| VString (s : string)
| VBuiltin (name : string).

Global Instance value_eq_dec : EqDecision value.
Proof. solve_decision. Defined.

(** The members that every plain object inherits from [Object.prototype]. *)
Definition objectPrototypeMembers : list string :=
  [ "constructor"; "__defineGetter__"; "__defineSetter__"; "hasOwnProperty";
    "__lookupGetter__"; "__lookupSetter__"; "isPrototypeOf";
    "propertyIsEnumerable"; "toString"; "valueOf"; "__proto__";
    "toLocaleString" ].

Definition inherited (key : string) : bool :=
  bool_decide (key ∈ objectPrototypeMembers).

(** ** Strings *)

(** The lower case of one code unit: the letters A-Z, and the capital
    letters of the range 192-222 (all of it but the sign at 215). *)
Definition lower_ascii (c : ascii) : ascii :=
  let n := nat_of_ascii c in
  if (((65 <=? n) && (n <=? 90)) ||
      ((192 <=? n) && (n <=? 222) && negb (n =? 215)))%nat
  then ascii_of_nat (n + 32) else c.

Fixpoint toLowerCase (s : string) : string :=
  match s with
  | EmptyString => EmptyString
  | String c rest => String (lower_ascii c) (toLowerCase rest)
  end.

Fixpoint startsWith (s t : string) : bool :=
  match t, s with
  | EmptyString, _ => true
  | String _ _, EmptyString => false
  | String b t', String a s' => if Ascii.eqb a b then startsWith s' t' else false
  end.

(** [s.includes(t)] *)
Fixpoint includes (s t : string) : bool :=
  startsWith s t ||
  match s with
  | EmptyString => false
  | String _ s' => includes s' t
  end.

(** *** From strings to numbers *)

(** White space and line terminators, which [StringToNumber] strips. *)
Definition isWhiteSpace (c : ascii) : bool :=
  let n := nat_of_ascii c in
  ((n =? 32) || ((9 <=? n) && (n <=? 13)) || (n =? 160))%nat.

Fixpoint trimStart (s : list ascii) : list ascii :=
  match s with
  | c :: rest => if isWhiteSpace c then trimStart rest else s
  | [] => []
  end.

Definition trim (s : list ascii) : list ascii :=
  rev (trimStart (rev (trimStart s))).

(** The value of a digit in the given radix. *)
Definition digitValue (radix : Z) (c : ascii) : option Z :=
  let n := Z.of_nat (nat_of_ascii c) in
  let v :=
    if (48 <=? n) && (n <=? 57) then n - 48
    else if (97 <=? n) && (n <=? 122) then n - 87
    else if (65 <=? n) && (n <=? 90) then n - 55
    else 99 in
  if v <? radix then Some v else None.

(** The digits at the head of [s]: their value after [acc], their number
    after [count], and what follows them. *)
Fixpoint readDigits (radix : Z) (acc : Z) (count : Z) (s : list ascii)
  : Z * Z * list ascii :=
  match s with
  | c :: rest =>
      match digitValue radix c with
      | Some d => readDigits radix (radix * acc + d) (count + 1) rest
      | None => (acc, count, s)
      end
  | [] => (acc, count, [])
  end.

Definition readSign (s : list ascii) : bool * list ascii :=
  match s with
  | "+"%char :: rest => (false, rest)
  | "-"%char :: rest => (true, rest)
  | _ => (false, s)
  end.

(** The optional exponent part: the exponent and what follows it; [None]
    when an [e] is not followed by digits. *)
Definition readExponent (s : list ascii) : option (Z * list ascii) :=
  match s with
  | ("e" | "E")%char :: rest =>
      let '(neg, rest) := readSign rest in
      let '(e, count, rest) := readDigits 10 0 0 rest in
      if count =? 0 then None else Some (if neg then - e else e, rest)
  | _ => Some (0, s)
  end.

(** An unsigned decimal literal that fills the string: [Infinity], or digits
    with an optional fraction and an optional exponent. *)
Definition readUnsignedDecimal (neg : bool) (s : list ascii) : number :=
  if decide (s = list_ascii_of_string "Infinity") then S754_infinity neg
  else
    let '(int, intCount, rest) := readDigits 10 0 0 s in
    let '(mant, fracCount, rest) :=
      match rest with
      | "."%char :: rest' =>
          let '(m, total, rest'') := readDigits 10 int intCount rest' in
          (m, total - intCount, rest'')
      | _ => (int, 0, rest)
      end in
    if intCount + fracCount =? 0 then S754_nan
    else
      match readExponent rest with
      | Some (e, []) => ofDecimal neg mant (e - fracCount)
      | _ => S754_nan
      end.

(** The digits of a binary, octal or hexadecimal literal, up to the end. *)
Definition readNonDecimal (radix : Z) (s : list ascii) : number :=
  match readDigits radix 0 0 s with
  | (n, count, []) => if count =? 0 then S754_nan else ofRational false n 1
  | _ => S754_nan
  end.

(** [+s] for a string: the empty or blank string is zero, a string that is
    no numeric literal is NaN. *)
Definition StringToNumber (s : string) : number :=
  match trim (list_ascii_of_string s) with
  | [] => S754_zero false
  | "0"%char :: ("x" | "X")%char :: rest => readNonDecimal 16 rest
  | "0"%char :: ("o" | "O")%char :: rest => readNonDecimal 8 rest
  | "0"%char :: ("b" | "B")%char :: rest => readNonDecimal 2 rest
  | t => let '(neg, rest) := readSign t in readUnsignedDecimal neg rest
  end.

(** *** From numbers to strings *)

Fixpoint digitsOfPos (fuel : nat) (n : Z) (acc : list ascii) : list ascii :=
  match fuel with
  | O => acc
  | S fuel =>
      let acc := ascii_of_nat (Z.to_nat (48 + n mod 10)) :: acc in
      if n <? 10 then acc else digitsOfPos fuel (n / 10) acc
  end.

(** The decimal digits of a natural number. *)
Definition decimalDigits (n : Z) : list ascii :=
  digitsOfPos (S (Z.to_nat (Z.log2 n))) n [].

Definition countDigits (n : Z) : Z := Z.of_nat (length (decimalDigits n)).

(** The least [j >= 1] with [q <= p * 10^j], for [0 < p < q]. *)
Fixpoint leadingShift (fuel : nat) (p q j : Z) : Z :=
  match fuel with
  | O => j
  | S fuel => if q <=? p * 10 ^ j then j else leadingShift fuel p q (j + 1)
  end.

(** The [n] with [10^(n-1) <= p/q < 10^n]. *)
Definition magnitude (p q : Z) : Z :=
  if q <=? p then countDigits (p / q)
  else 1 - leadingShift (S (Z.to_nat (Z.log2 q))) p q 1.

(** The integer part of [p/q * 10^i], and how the rest compares with one
    half. *)
Definition scaled (p q i : Z) : Z * comparison :=
  let '(num, den) := if 0 <=? i then (p * 10 ^ i, q) else (p, q * 10 ^ (- i)) in
  (num / den, (2 * (num mod den)) ?= den).

(** The shortest digits of the double [x = p/q]: the least [k], from the
    given one on, with an integer [s] of [k] digits such that [s * 10^(n-k)]
    reads back as [x]; of two such [s] the one nearer to [x], the even one
    on a tie.  Returns [s], [k] and [n]. *)
Fixpoint shortest (fuel : nat) (x : number) (p q n k : Z) : Z * Z * Z :=
  let '(lo, half) := scaled p q (k - n) in
  let hi := lo + 1 in
  let back s := numberEq (ofDecimal false s (n - k)) x in
  let pick s := if s =? 10 ^ k then (10 ^ (k - 1), k, n + 1) else (s, k, n) in
  match fuel with
  | O => pick lo
  | S fuel =>
      match back lo, back hi with
      | true, true =>
          match half with
          | Lt => pick lo
          | Gt => pick hi
          | Eq => if Z.even lo then pick lo else pick hi
          end
      | true, false => pick lo
      | false, true => pick hi
      | false, false => shortest fuel x p q n (k + 1)
      end
  end.

Definition zeros (n : Z) : list ascii := repeat "0"%char (Z.to_nat n).

Definition exponentText (n : Z) : list ascii :=
  let e := n - 1 in
  "e"%char :: (if e <? 0 then "-"%char else "+"%char) :: decimalDigits (Z.abs e).

(** [Number::toString] for the positive double [m * 2^e]. *)
Definition positiveToString (m : positive) (e : Z) : list ascii :=
  let '(p, q) := if 0 <=? e then (Zpos m * 2 ^ e, 1) else (Zpos m, 2 ^ (- e)) in
  let '(s, k, n) := shortest 17 (S754_finite false m e) p q (magnitude p q) 1 in
  let digits := decimalDigits s in
  if (k <=? n) && (n <=? 21) then (digits ++ zeros (n - k))%list
  else if (0 <? n) && (n <=? 21) then
    (firstn (Z.to_nat n) digits ++ "."%char :: skipn (Z.to_nat n) digits)%list
  else if (-6 <? n) && (n <=? 0) then
    ("0"%char :: "."%char :: zeros (- n) ++ digits)%list
  else if k =? 1 then (digits ++ exponentText n)%list
  else (firstn 1 digits ++ "."%char :: skipn 1 digits ++ exponentText n)%list.

(** [String(x)] for a number. *)
Definition numberToString (x : number) : string :=
  match canon x with
  | S754_nan => "NaN"
  | S754_zero _ => "0"
  | S754_infinity s => if s then "-Infinity" else "Infinity"
  | S754_finite s m e =>
      string_of_list_ascii
        ((if s then ["-"%char] else []) ++ positiveToString m e)%list
  end.

(** ** Conversions and operators *)

(** [String(v)] *)
Definition ToString (v : value) : string :=
  match v with
  | VUndefined => "undefined"
  | VNull => "null"
  | VBool true => "true"
  | VBool false => "false"
  | VNumber n => numberToString n
  | VString s => s
  | VBuiltin name =>
      if String.eqb name "__proto__" then "[object Object]"
      else if String.eqb name "constructor" then
        "function Object() { [native code] }"
      else "function " ++ name ++ "() { [native code] }"
  end.

(** [ToNumber(v)] *)
Definition ToNumber (v : value) : number :=
  match v with
  | VUndefined => S754_nan
  | VNull => 0
  | VBool b => if b then 1 else 0
  | VNumber n => n
  | VString s => StringToNumber s
  | VBuiltin _ => S754_nan
  end.

(** [!!v] *)
Definition truthy (v : value) : bool :=
  match v with
  | VUndefined | VNull => false
  | VBool b => b
  | VNumber n => negb (isZero n || isNaN n)
  | VString s => negb (String.eqb s "")
  | VBuiltin _ => true
  end.

Definition typeof (v : value) : string :=
  match v with
  | VUndefined => "undefined"
  | VNull => "object"
  | VBool _ => "boolean"
  | VNumber _ => "number"
  | VString _ => "string"
  | VBuiltin name => if String.eqb name "__proto__" then "object" else "function"
  end.

(** [a === b] *)
Definition strictEquals (a b : value) : bool :=
  match a, b with
  | VNumber x, VNumber y => numberEq x y
  | _, _ => bool_decide (a = b)
  end.

Definition isStringLike (v : value) : option string :=
  match v with
  | VString s => Some s
  | VBuiltin _ => Some (ToString v)
  | _ => None
  end.

(** [a > b]: two strings compare by code units, anything else as numbers,
    and a comparison with NaN is false. *)
Definition greaterThan (a b : value) : bool :=
  match isStringLike a, isStringLike b with
  | Some s, Some t =>
      match String.compare s t with Gt => true | _ => false end
  | _, _ => numberLt (ToNumber b) (ToNumber a)
  end.

(** ** Books *)

Abbreviation Book := (gmap string value).

(** [book[key]] and [book.key] *)
Definition getProp (book : Book) (key : string) : value :=
  match book !! key with
  | Some v => v
  | None => if inherited key then VBuiltin key else VUndefined
  end.

(** [Object.keys(book).includes(key)] *)
Definition hasKey (book : Book) (key : string) : bool :=
  bool_decide (is_Some (book !! key)).

(** [{...a, ...b}]: the properties of [b] win over those of [a]. *)
Definition spread (a b : Book) : Book := b ∪ a.

(** ** The shelf: the private object [#_shelf] *)

Abbreviation Shelf := (list (string * Book)).

(** The own property [key] of the shelf, if there is one. *)
Fixpoint shelfGet (key : string) (shelf : Shelf) : option Book :=
  match shelf with
  | [] => None
  | (k, book) :: rest => if decide (k = key) then Some book else shelfGet key rest
  end.

(** [this.#_shelf[key] = book]: an existing property keeps its place, a new
    one goes last. *)
Fixpoint shelfSet (key : string) (book : Book) (shelf : Shelf) : Shelf :=
  match shelf with
  | [] => [(key, book)]
  | (k, b) :: rest =>
      if decide (k = key) then (k, book) :: rest
      else (k, b) :: shelfSet key book rest
  end.

(** [this.#_shelf.hasOwnProperty(key)] *)
Definition hasOwnProperty (key : string) (shelf : Shelf) : bool :=
  bool_decide (is_Some (shelfGet key shelf)).

(** [Object.values(this.#_shelf)] *)
Definition values (shelf : Shelf) : list Book := map snd shelf.

Definition keys (shelf : Shelf) : list string := map fst shelf.

(** A query object, as [Object.entries] lists it. *)
Abbreviation Query := (list (string * string)).

(** What a method hands back: a value, or an exception with its message. *)
Inductive completion (A : Type) : Type :=
| Normal (a : A)
| Throw (msg : string).
Arguments Normal {A} a.
Arguments Throw {A} msg.

(** What [getBooks] and [#findBook] return as data.  [FBook ref book] is the
    record object stored under the key [ref]: the caller holds the stored
    object itself, not a copy. *)
Inductive found : Type :=
| FBooks (books : list Book)
| FBook (ref : string) (book : Book)
| FBuiltin (name : string)
| FUndefined
| FNull.

(** The argument of [getBooks]: a string or a query object. *)
Inductive selector : Type :=
| SelString (s : string)
| SelQuery (queryObj : Query).

(** ** [#filterBooksBasedOnQuerys] *)

(** The test of lines 145-146:
    [String(book[key]).toLowerCase()
       .includes(String(isNaN(+value) ? value : !!+value).toLowerCase())] *)
Definition termMatches (book : Book) (key value : string) : bool :=
  includes
    (toLowerCase (ToString (getProp book key)))
    (toLowerCase
       (if isNaN (StringToNumber value) then value
        else ToString (VBool (truthy (VNumber (StringToNumber value)))))).

(** [isPassed.every((test) => test)] *)
Definition every (isPassed : list Z) : bool :=
  forallb (fun test => negb (test =? 0)) isPassed.

(** One round of the inner [for] loop, on the pair [bagOfBooks], [isPassed]. *)
Definition filterRound (querys : Query) (book : Book)
    (st : list Book * list Z) (i : nat) : list Book * list Z :=
  let '(bagOfBooks, isPassed) := st in
  match querys !! i with
  | None => st
  | Some (key, value) =>
      let isPassed :=
        if termMatches book key value then <[i := 1]> isPassed else isPassed in
      let bagOfBooks :=
        if every isPassed then (bagOfBooks ++ [book])%list else bagOfBooks in
      (bagOfBooks, replicate (length isPassed) 0)
  end.

Definition filterBook (querys : Query)
    (st : list Book * list Z) (book : Book) : list Book * list Z :=
  fold_left (filterRound querys book) (seq 0 (length querys)) st.

Definition filterBooksBasedOnQuerys (queryObj : Query) (shelf : Shelf)
  : completion (list Book) :=
  if (length queryObj =? 0)%nat then Throw "queryObj is an empty object"
  else
    let querys := queryObj in
    let isPassed := replicate (length querys) 0 in
    Normal (fst (fold_left (filterBook querys) (values shelf) ([], isPassed))).

(** ** [getBooks], [#addBook], [#updateBook], [#deleteBook], [#findBook] *)

Definition getBooks (opt : selector) (shelf : Shelf) : completion found :=
  match opt with
  | SelString s =>
      if decide (s = "all") then Normal (FBooks (values shelf))
      else
        Normal
          match shelfGet s shelf with
          | Some book => FBook s book
          | None => if inherited s then FBuiltin s else FUndefined
          end
  | SelQuery queryObj =>
      match filterBooksBasedOnQuerys queryObj shelf with
      | Normal books => Normal (FBooks books)
      | Throw msg => Throw msg
      end
  end.

(** [id] is what [nanoid()] returned, [t1] and [t2] what the two calls of
    [new Date().toISOString()] returned, in this order. *)
Definition addBook (id t1 t2 : string) (book : Book) (shelf : Shelf)
  : string * Shelf :=
  let book :=
    <["finished" :=
        VBool (strictEquals (getProp book "pageCount") (getProp book "readPage"))]>
      book in
  let book := <["insertedAt" := VString t1]> book in
  let book := <["updatedAt" := VString t2]> book in
  let book := <["id" := VString id]> book in
  (id, shelfSet id book shelf).

(** [newBook] is an object of the shelf, stored under [ref]; the assignment
    to [newBook.updatedAt] is seen through the shelf.  [None]: the argument
    is no record of the shelf, a call the model does not cover. *)
Definition updateBook (now : string) (newBook : found) (shelf : Shelf)
  : option (bool * Shelf) :=
  match newBook with
  | FBook ref newBook =>
      let id := ToString (getProp newBook "id") in
      let updatedAt := VString now in
      let newBook := <["updatedAt" := updatedAt]> newBook in
      let shelf := shelfSet ref newBook shelf in
      let stored := default ∅ (shelfGet id shelf) in
      Some (true,
            shelfSet id
              (spread (spread {["updatedAt" := updatedAt]} newBook) stored)
              shelf)
  | _ => None
  end.

Definition deleteBook (id : string) (shelf : Shelf) : Shelf :=
  List.filter (fun entry => negb (bool_decide (entry.1 = id))) shelf.

Definition findBook (id : string) (shelf : Shelf) : completion (bool * found) :=
  if hasOwnProperty id shelf then
    match getBooks (SelString id) shelf with
    | Normal data => Normal (true, data)
    | Throw msg => Throw msg
    end
  else Normal (false, FNull).

(** ** Payloads *)

(** What [request.payload] holds: [null] for a request without body, a JSON
    object, or another JSON value (a string, a number, a boolean or an
    array). *)
Inductive body : Type :=
| BodyNull
| BodyObject (book : Book)
| BodyOther.

#[warning="-uniform-inheritance"]
Coercion BodyObject : gmap >-> body.

(** Written as a payload, [∅] is the object without fields. *)
Global Instance body_empty : Empty body := BodyObject ∅.

(** ** [#validatePayload] *)

Definition bookObjectProperties : list (string * string) :=
  [ ("name", "string"); ("year", "number"); ("author", "string");
    ("summary", "string"); ("publisher", "string"); ("pageCount", "number");
    ("readPage", "number"); ("reading", "boolean") ].

Definition emptyNameMessage : string := "empty name".
Definition readPageErrMessage : string := "readerPage is bigger then pageCount".
Definition genericMessage : string := "generic error".

(** The validator returns an object [{status, message}], or the bare
    boolean [false] of its last line. *)
Inductive verdict : Type :=
| Verdict (status : bool) (message : string)
| BareFalse.

(** The [for ... in] loop over the table, from the entry [props] on. *)
Fixpoint validateFrom (props : list (string * string)) (book : Book) : verdict :=
  match props with
  | [] => BareFalse
  | (key, type) :: rest =>
      if hasKey book key then
        if negb (truthy (getProp book "name")) then
          Verdict false emptyNameMessage
        else if greaterThan (getProp book "readPage") (getProp book "pageCount") then
          Verdict false readPageErrMessage
        else if negb (String.eqb (typeof (getProp book key)) type) then
          Verdict false genericMessage
        else Verdict true "ok"
      else validateFrom rest book
  end.

Definition validatePayload (book : Book) : verdict :=
  validateFrom bookObjectProperties book.

(** The message of the [TypeError] of [Object.keys(null)]. *)
Definition nullPayloadMessage : string :=
  "Cannot convert undefined or null to object".

(** The validator on whatever the request carries.  [Object.keys] throws
    on [null]; the keys of a string or of an array are indices and those of
    a number or of a boolean are none, so that the loop finds no recognised
    key. *)
Definition validatePayloadOf (payload : body) : completion verdict :=
  match payload with
  | BodyNull => Throw nullPayloadMessage
  | BodyObject book => Normal (validatePayload book)
  | BodyOther => Normal BareFalse
  end.

(** Some key of the table is a key of the payload. *)
Definition recognised (book : Book) : bool :=
  existsb (fun entry => hasKey book entry.1) bookObjectProperties.

(** [result.status] taken as a condition, and [result.message]; both are
    [undefined] on the bare [false]. *)
Definition verdictStatus (result : verdict) : bool :=
  match result with
  | Verdict status _ => status
  | BareFalse => false
  end.

Definition verdictMessage (result : verdict) : option string :=
  match result with
  | Verdict _ message => Some message
  | BareFalse => None
  end.

(** ** Responses and handlers *)

Inductive bodyData : Type :=
| NoData
| DataBookId (bookId : string)
| DataBooks (books : found)
| DataBook (book : found).

Record response : Type := Response {
  code : Z;
  status : string;
  message : option string;
  data : bodyData
}.

(** What a handler call comes to: a response, [undefined], an exception, or
    a call the model does not cover. *)
Inductive outcome : Type :=
| Responded (r : response)
| ReturnsUndefined
| Throws (msg : string)
| Unmodelled.

Record request : Type := Request {
  payload : body;
  bookId : option string;
  query : Query
}.

(** [request.params.bookId] used as a property key. *)
Definition paramKey (bookId : option string) : string :=
  default "undefined" bookId.

Definition failure (httpCode : Z) (msg : string) : outcome :=
  Responded (Response httpCode "fail" (Some msg) NoData).

Definition putHandler (now : string) (req : request) (shelf : Shelf)
  : outcome * Shelf :=
  let newBook := payload req in
  match findBook (paramKey (bookId req)) shelf with
  | Throw msg => (Throws msg, shelf)
  | Normal (isAvailable, data) =>
      if negb isAvailable then
        (failure 404 "Gagal memperbarui buku. Id tidak ditemukan", shelf)
      else
        match validatePayloadOf newBook with
        | Throw msg => (Throws msg, shelf)
        | Normal result =>
            if negb (verdictStatus result) then
              if decide (verdictMessage result = Some "general error") then
                (failure 500 "Gagal memperbarui buku", shelf)
              else if decide (verdictMessage result = Some "empty name") then
                (failure 400 "Gagal memperbarui buku. Mohon isi nama buku", shelf)
              else
                (failure 400
                   ("Gagal memperbarui buku. " ++
                    "readPage tidak boleh lebih besar dari pageCount"), shelf)
            else
              match updateBook now data shelf with
              | None => (Unmodelled, shelf)
              | Some (isUpdated, shelf) =>
                  if isUpdated then
                    (Responded
                       (Response 200 "success" (Some "Buku berhasil diperbarui")
                          NoData),
                     shelf)
                  else (ReturnsUndefined, shelf)
              end
        end
  end.

Definition getHandler (req : request) (shelf : Shelf) : outcome * Shelf :=
  if negb (length (query req) =? 0)%nat then
    match getBooks (SelQuery (query req)) shelf with
    | Throw msg => (Throws msg, shelf)
    | Normal books =>
        (Responded (Response 200 "success" None (DataBooks books)), shelf)
    end
  else
    match bookId req with
    | Some id =>
        if negb (String.eqb id "") then
          match getBooks (SelString id) shelf with
          | Throw msg => (Throws msg, shelf)
          | Normal FUndefined =>
              (Responded
                 (Response 404 "fail" (Some "Buku tidak ditemukan") NoData), shelf)
          | Normal book =>
              (Responded (Response 200 "success" None (DataBook book)), shelf)
          end
        else
          match getBooks (SelString "all") shelf with
          | Throw msg => (Throws msg, shelf)
          | Normal books =>
              (Responded (Response 200 "success" None (DataBooks books)), shelf)
          end
    | None =>
        match getBooks (SelString "all") shelf with
        | Throw msg => (Throws msg, shelf)
        | Normal books =>
            (Responded (Response 200 "success" None (DataBooks books)), shelf)
        end
    end.

Definition postHandler (id t1 t2 : string) (req : request) (shelf : Shelf)
  : outcome * Shelf :=
  let book := payload req in
  match validatePayloadOf book with
  | Throw msg => (Throws msg, shelf)
  | Normal validationResult =>
      let status := if verdictStatus validationResult then "success" else "fail" in
      if verdictStatus validationResult then
        match book with
        | BodyObject book =>
            let '(bookId, shelf) := addBook id t1 t2 book shelf in
            (Responded
               (Response 201 "success" (Some "Buku berhasil ditambahkan")
                  (DataBookId bookId)), shelf)
        | _ => (Unmodelled, shelf)
        end
      else
        let '(resMessage, resCode) :=
          if decide (verdictMessage validationResult = Some "generic error") then
            ("Buku gagal ditambahkan", 500)
          else if decide (verdictMessage validationResult = Some "empty name") then
            ("Gagal menambahkan buku. Mohon isi nama buku", 400)
          else
            ("Gagal menambahkan buku. readPage tidak " ++
             "boleh lebih besar dari pageCount", 400) in
        (Responded (Response resCode status (Some resMessage) NoData), shelf)
  end.

Definition deleteHandler (req : request) (shelf : Shelf) : outcome * Shelf :=
  match findBook (paramKey (bookId req)) shelf with
  | Throw msg => (Throws msg, shelf)
  | Normal (status, _) =>
      if negb status then
        (failure 404 "Buku gagal dihapus. Id tidak ditemukan", shelf)
      else
        (Responded (Response 200 "success" (Some "Buku berhasil dihapus") NoData),
         deleteBook (paramKey (bookId req)) shelf)
  end.

(** What the environment supplies to one request: the value of [nanoid()]
    and the successive clock readings. *)
Record environment : Type := Environment {
  nanoid : string;
  clock1 : string;
  clock2 : string
}.

(** [handleMethod]: [None] when the [switch] matches no case. *)
Definition handleMethod (httpRequestMethod : string)
  : option (environment -> request -> Shelf -> outcome * Shelf) :=
  let method := toLowerCase httpRequestMethod in
  if String.eqb method "get" then Some (fun _ => getHandler)
  else if String.eqb method "post" then
    Some (fun env => postHandler (nanoid env) (clock1 env) (clock2 env))
  else if String.eqb method "put" then Some (fun env => putHandler (clock1 env))
  else if String.eqb method "delete" then Some (fun _ => deleteHandler)
  else None.

(** Ids as [nanoid()] makes them: 21 characters of [A-Za-z0-9_-]. *)
Definition urlSafe (c : ascii) : bool :=
  let n := nat_of_ascii c in
  (((65 <=? n) && (n <=? 90)) || ((97 <=? n) && (n <=? 122)) ||
   ((48 <=? n) && (n <=? 57)) || (n =? 95) || (n =? 45))%nat.

Definition isNanoid (id : string) : bool :=
  (String.length id =? 21)%nat && forallb urlSafe (list_ascii_of_string id).

(** ** Sample data *)

Definition dune : Book :=
  list_to_map
    [ ("name", VString "Dune"); ("year", VNumber 1965);
      ("author", VString "Herrick"); ("summary", VString "s");
      ("publisher", VString "p"); ("pageCount", VNumber 500);
      ("readPage", VNumber 500); ("reading", VBool false) ].

Definition duneId : string := "V1StGXR8_Z5jdHi6B-myT".

Definition noon : string := "2023-03-19T12:00:00.000Z".
Definition noon1 : string := "2023-03-19T12:00:00.001Z".
Definition later : string := "2023-03-20T08:30:00.000Z".

Definition oneBook : Shelf :=
  (postHandler duneId noon noon (Request dune None []) []).2.

(** The same book with another year, as an update payload. *)
Definition revised : Book := <["year" := VNumber 1970]> dune.

(** A payload whose [readPage] is a numeric string above its [pageCount]. *)
Definition scientific : Book :=
  list_to_map
    [ ("name", VString "Dune"); ("readPage", VString "1e3");
      ("pageCount", VNumber 5) ].

(** A payload whose [readPage] is a digit string that rounds, as a double,
    to its [pageCount]. *)
Definition rounded : Book :=
  list_to_map
    [ ("name", VString "Dune"); ("readPage", VString "9007199254740993");
      ("pageCount", VNumber 9007199254740992) ].

(** Payloads with a value of the wrong type. *)
Definition numericName : Book := {["name" := VNumber 5]}.
Definition wordedYear : Book := <["year" := VString "nineteen sixty-five"]> dune.

(** The book again, sent with fields that only the server sets. *)
Definition forged : Book :=
  <["id" := VString "mine"]> (<["finished" := VBool false]> dune).

(** A payload without name in which [readPage] exceeds [pageCount]. *)
Definition nameless : Book :=
  list_to_map [ ("pageCount", VNumber 500); ("readPage", VNumber 600) ].

(** A payload with [readPage] alone, above the [pageCount] of [dune]. *)
Definition overread : Book := {["readPage" := VNumber 600]}.

(** The verbs that [handleMethod] knows, in lower case. *)
Definition handledMethods : list string := ["get"; "post"; "put"; "delete"].

(** The book that a detail response carries, if it carries one. *)
Definition retrieved (o : outcome) : option Book :=
  match o with
  | Responded (Response _ _ _ (DataBook (FBook _ book))) => Some book
  | _ => None
  end.

(** The books that a list response carries. *)
Definition listed (o : outcome) : option (list Book) :=
  match o with
  | Responded (Response _ _ _ (DataBooks (FBooks books))) => Some books
  | _ => None
  end.

(** ** Reachable shelves

    One step is one handled request.  Ids come from [nanoid()]: a step of
    [postHandler] draws a well-formed id that the shelf does not hold yet. *)

Inductive step (shelf : Shelf) : Shelf -> Prop :=
| step_create id t1 t2 req :
    isNanoid id = true ->
    shelfGet id shelf = None ->
    step shelf (postHandler id t1 t2 req shelf).2
| step_retrieve req :
    step shelf (getHandler req shelf).2
| step_update now req :
    step shelf (putHandler now req shelf).2
| step_delete req :
    step shelf (deleteHandler req shelf).2.

Definition reachable (shelf : Shelf) : Prop := rtc step [] shelf.

(** Every record carries its key as [id], and every key is a nanoid. *)
Definition keyed (entry : string * Book) : Prop :=
  entry.2 !! "id" = Some (VString entry.1) /\ isNanoid entry.1 = true.

(** * Properties *)

(** ** Numbers and strings at work *)

(** The forms of numeric string literals, and a string that is none. *)
Example StringToNumber_forms :
  StringToNumber "1965" = 1965 /\
  StringToNumber " 1e3 " = 1000 /\
  StringToNumber "0x10" = 16 /\
  StringToNumber "0b101" = 5 /\
  StringToNumber "5." = 5 /\
  StringToNumber ".5" = ofDecimal false 5 (-1) /\
  StringToNumber "" = S754_zero false /\
  StringToNumber "-0.0" = S754_zero true /\
  StringToNumber "-Infinity" = S754_infinity true /\
  StringToNumber "1e400" = S754_infinity false /\
  StringToNumber "9007199254740993" = 9007199254740992 /\
  isNaN (StringToNumber "dun") = true /\
  isNaN (StringToNumber "-0x10") = true /\
  isNaN (StringToNumber "1e") = true.
Proof. vm_compute. repeat split; reflexivity. Qed.

(** The forms in which numbers are printed. *)
Example numberToString_forms :
  numberToString 1965 = "1965" /\
  numberToString (-12) = "-12" /\
  numberToString (StringToNumber "1.50") = "1.5" /\
  numberToString (StringToNumber "0.000001") = "0.000001" /\
  numberToString (StringToNumber "0.0000001") = "1e-7" /\
  numberToString (StringToNumber "123456789012345678901") =
    "123456789012345680000" /\
  numberToString (StringToNumber "1000000000000000000000") = "1e+21" /\
  numberToString (StringToNumber "-0") = "0" /\
  numberToString S754_nan = "NaN".
Proof. vm_compute. repeat split; reflexivity. Qed.

(** The validator compares [readPage] and [pageCount] as JavaScript does:
    a numeric string counts with its value, as a double. *)
Example validator_compares_doubles :
  validatePayload scientific = Verdict false readPageErrMessage /\
  validatePayload rounded = Verdict true "ok".
Proof. vm_compute. split; reflexivity. Qed.

(** ** The shelf as a map *)

Section ShelfFacts.
Implicit Types (shelf : Shelf) (key : string) (book : Book).

Lemma shelfGet_shelfSet_eq key book shelf :
  shelfGet key (shelfSet key book shelf) = Some book.
Proof.
  induction shelf as [|[k b] rest IH]; simpl.
  - by rewrite decide_True.
  - destruct (decide (k = key)) as [->|Hne]; simpl.
    + by rewrite decide_True.
    + by rewrite decide_False.
Qed.

Lemma shelfGet_shelfSet_ne key key' book shelf :
  key <> key' ->
  shelfGet key' (shelfSet key book shelf) = shelfGet key' shelf.
Proof.
  intros Hne. induction shelf as [|[k b] rest IH]; simpl.
  - by rewrite decide_False.
  - destruct (decide (k = key)) as [->|Hk]; simpl.
    + by rewrite !decide_False.
    + destruct (decide (k = key')); [done | apply IH].
Qed.

Lemma shelfSet_shelfSet key book book' shelf :
  shelfSet key book' (shelfSet key book shelf) = shelfSet key book' shelf.
Proof.
  induction shelf as [|[k b] rest IH]; simpl.
  - by rewrite decide_True.
  - destruct (decide (k = key)) as [->|Hk]; simpl.
    + by rewrite decide_True.
    + rewrite decide_False by done. by rewrite IH.
Qed.

Lemma shelfSet_fresh key book shelf :
  shelfGet key shelf = None -> shelfSet key book shelf = (shelf ++ [(key, book)])%list.
Proof.
  induction shelf as [|[k b] rest IH]; simpl; [done |].
  destruct (decide (k = key)); [done |]. intros H. by rewrite IH.
Qed.

Lemma shelfSet_Forall (P : string * Book -> Prop) key book shelf :
  P (key, book) -> Forall P shelf -> Forall P (shelfSet key book shelf).
Proof.
  intros HP. induction 1 as [|[k b] rest Hkb Hrest IH]; simpl.
  - by constructor.
  - destruct (decide (k = key)) as [->|Hk]; by constructor.
Qed.

Lemma shelfGet_Forall (P : string * Book -> Prop) key book shelf :
  Forall P shelf -> shelfGet key shelf = Some book -> P (key, book).
Proof.
  induction 1 as [|[k b] rest Hkb Hrest IH]; simpl; [done |].
  destruct (decide (k = key)) as [->|Hk]; [by intros [= <-] | done].
Qed.

Lemma deleteBook_Forall (P : string * Book -> Prop) key shelf :
  Forall P shelf -> Forall P (deleteBook key shelf).
Proof.
  induction 1 as [|[k b] rest Hkb Hrest IH]; simpl; [constructor |].
  destruct (negb _); [by constructor | done].
Qed.

Lemma shelfGet_deleteBook_eq key shelf :
  shelfGet key (deleteBook key shelf) = None.
Proof.
  induction shelf as [|[k b] rest IH]; simpl; [done |].
  case_bool_decide as Hk; simpl in *; [done |].
  by rewrite decide_False.
Qed.

Lemma shelfGet_deleteBook_ne key key' shelf :
  key <> key' ->
  shelfGet key' (deleteBook key shelf) = shelfGet key' shelf.
Proof.
  intros Hne. induction shelf as [|[k b] rest IH]; simpl; [done |].
  case_bool_decide as Hk; simpl in *.
  - subst k. by rewrite decide_False.
  - by rewrite IH.
Qed.

Lemma hasOwnProperty_true key shelf :
  hasOwnProperty key shelf = true <-> is_Some (shelfGet key shelf).
Proof. unfold hasOwnProperty. by rewrite bool_decide_eq_true. Qed.

Lemma hasOwnProperty_false key shelf :
  hasOwnProperty key shelf = false <-> shelfGet key shelf = None.
Proof.
  unfold hasOwnProperty.
  by rewrite bool_decide_eq_false, eq_None_not_Some.
Qed.
End ShelfFacts.

(** A nanoid is neither the word [all] nor a member of [Object.prototype]. *)
Lemma isNanoid_length id : isNanoid id = true -> String.length id = 21%nat.
Proof.
  unfold isNanoid. intros [H _]%andb_prop. by apply Nat.eqb_eq.
Qed.

Lemma isNanoid_not_all id : isNanoid id = true -> id <> "all".
Proof. intros H%isNanoid_length ->. discriminate H. Qed.

Lemma isNanoid_not_inherited id : isNanoid id = true -> inherited id = false.
Proof.
  intros H%isNanoid_length. unfold inherited.
  apply bool_decide_eq_false. unfold objectPrototypeMembers.
  rewrite !elem_of_cons, elem_of_nil.
  intros Hin. repeat (destruct Hin as [-> | Hin]; [discriminate H |]).
  done.
Qed.

(** ** The validator *)

Section Validator.
Implicit Types (book : Book).

Lemma getProp_absent book key :
  book !! key = None -> inherited key = false -> getProp book key = VUndefined.
Proof. unfold getProp. by intros -> ->. Qed.

Lemma getProp_own book key v : book !! key = Some v -> getProp book key = v.
Proof. unfold getProp. by intros ->. Qed.

Lemma hasKey_false book key : hasKey book key = false <-> book !! key = None.
Proof. unfold hasKey. by rewrite bool_decide_eq_false, eq_None_not_Some. Qed.

Lemma validateFrom_falsy_name props book :
  truthy (getProp book "name") = false ->
  validateFrom props book =
    if existsb (fun entry => hasKey book entry.1) props
    then Verdict false emptyNameMessage else BareFalse.
Proof.
  intros Hname. induction props as [|[key type] rest IH]; simpl; [done |].
  destruct (hasKey book key); simpl; [by rewrite Hname | apply IH].
Qed.

(** The whole validator in one formula: only the type of [name] is ever
    looked at. *)
Lemma validatePayload_unfold book :
  validatePayload book =
    if negb (recognised book) then BareFalse
    else if negb (truthy (getProp book "name")) then
      Verdict false emptyNameMessage
    else if greaterThan (getProp book "readPage") (getProp book "pageCount") then
      Verdict false readPageErrMessage
    else if negb (String.eqb (typeof (getProp book "name")) "string") then
      Verdict false genericMessage
    else Verdict true "ok".
Proof.
  destruct (truthy (getProp book "name")) eqn:Hname.
  - assert (hasKey book "name" = true) as Hkey.
    { destruct (hasKey book "name") eqn:Hk; [done |].
      apply hasKey_false in Hk.
      rewrite (getProp_absent _ _ Hk) in Hname by done. discriminate. }
    unfold recognised, validatePayload. simpl. by rewrite Hkey, Hname.
  - unfold validatePayload, recognised.
    rewrite (validateFrom_falsy_name _ _ Hname).
    by destruct (existsb _ _).
Qed.

Lemma validatePayload_message book status msg :
  validatePayload book = Verdict status msg ->
  msg = emptyNameMessage \/ msg = readPageErrMessage \/
  msg = genericMessage \/ (status = true /\ msg = "ok").
Proof.
  rewrite validatePayload_unfold.
  repeat (destruct (negb _) || destruct (greaterThan _ _));
    intros [= <- <-]; tauto.
Qed.

(** A recognised payload with a falsy or missing name: [EmptyName],
    whatever the page counts are. *)
Lemma validatePayload_emptyName book :
  recognised book = true ->
  truthy (getProp book "name") = false ->
  validatePayload book = Verdict false emptyNameMessage.
Proof. intros Hr Hn. rewrite validatePayload_unfold. by rewrite Hr, Hn. Qed.

(** A truthy name and [readPage > pageCount]: [ReadPageExceedsPageCount],
    whatever the types are. *)
Lemma validatePayload_readPage book :
  truthy (getProp book "name") = true ->
  greaterThan (getProp book "readPage") (getProp book "pageCount") = true ->
  validatePayload book = Verdict false readPageErrMessage.
Proof.
  intros Hn Hgt. rewrite validatePayload_unfold.
  assert (recognised book = true) as ->; [| by rewrite Hn, Hgt].
  unfold recognised. simpl.
  destruct (hasKey book "name") eqn:Hk; [done |].
  apply hasKey_false in Hk.
  rewrite (getProp_absent _ _ Hk) in Hn by done. discriminate.
Qed.

(** Acceptance says nothing on the fields other than [name]. *)
Lemma validatePayload_accepts book :
  validatePayload book = Verdict true "ok" <->
  (exists s, book !! "name" = Some (VString s) /\ s <> "") /\
  greaterThan (getProp book "readPage") (getProp book "pageCount") = false.
Proof.
  rewrite validatePayload_unfold. split.
  - destruct (recognised book); simpl; [| done].
    destruct (truthy (getProp book "name")) eqn:Hn; simpl; [| done].
    destruct (greaterThan _ _); [done |].
    destruct (String.eqb _ _) eqn:Ht; simpl; [| done].
    intros _. split; [| done].
    unfold getProp in *. destruct (book !! "name") as [v|] eqn:Hv.
    + destruct v; simpl in *; try discriminate.
      * exists s. split; [done |]. intros ->. discriminate.
      * by destruct (String.eqb name "__proto__").
    + discriminate.
  - intros [(s & Hs & Hne) Hgt].
    assert (recognised book = true) as ->.
    { unfold recognised, hasKey. simpl. by rewrite Hs, bool_decide_true. }
    rewrite (getProp_own _ _ _ Hs), Hgt. simpl.
    destruct (String.eqb_spec s ""); done.
Qed.
End Validator.

(** ** The filter *)

Section Filter.
Implicit Types (book : Book) (querys : Query) (bag : list Book).

Lemma every_replicate_insert n i :
  (2 <= n)%nat -> every (<[i := 1]> (replicate n 0)) = false.
Proof.
  intros Hn. apply not_true_is_false. unfold every.
  rewrite forallb_forall. intros Hall.
  set (j := if decide (i = 0%nat) then 1%nat else 0%nat).
  assert ((<[i := 1]> (replicate n 0)) !! j = Some 0) as Hj.
  { rewrite list_lookup_insert_ne by (unfold j; case_decide; lia).
    apply lookup_replicate_2. unfold j; case_decide; lia. }
  apply list_elem_of_lookup_2, list_elem_of_In, Hall in Hj. discriminate.
Qed.

Lemma every_replicate n : (1 <= n)%nat -> every (replicate n 0) = false.
Proof. destruct n; [lia | done]. Qed.

(** With two terms or more, a round never adds the book: at the test only
    the slot of the current term can be set, and the round ends by
    clearing it. *)
Lemma filterRound_many querys book bag i :
  (2 <= length querys)%nat ->
  filterRound querys book (bag, replicate (length querys) 0) i =
    (bag, replicate (length querys) 0).
Proof.
  intros Hn. unfold filterRound.
  destruct (querys !! i) as [[key value]|]; [| done].
  destruct (termMatches book key value).
  - rewrite every_replicate_insert by done.
    by rewrite length_insert, length_replicate.
  - rewrite every_replicate by lia. by rewrite length_replicate.
Qed.

Lemma filterBook_many querys book bag :
  (2 <= length querys)%nat ->
  filterBook querys (bag, replicate (length querys) 0) book =
    (bag, replicate (length querys) 0).
Proof.
  intros Hn. unfold filterBook.
  induction (seq 0 (length querys)) as [|i rest IH]; [done |].
  cbn [fold_left]. by rewrite filterRound_many.
Qed.

(** Two terms or more: the result is empty, whatever the shelf holds. *)
Lemma filter_many_terms querys shelf :
  (2 <= length querys)%nat ->
  filterBooksBasedOnQuerys querys shelf = Normal [].
Proof.
  intros Hn. unfold filterBooksBasedOnQuerys.
  destruct (Nat.eqb_spec (length querys) 0); [lia |]. f_equal.
  induction (values shelf) as [|book rest IH]; [done |].
  cbn [fold_left]. by rewrite filterBook_many.
Qed.



Lemma filter_empty_query shelf :
  filterBooksBasedOnQuerys [] shelf = Throw "queryObj is an empty object".
Proof. done. Qed.
End Filter.

(** ** The store operations *)

Section Store.
Implicit Types (shelf : Shelf) (book : Book) (req : request).

Lemma spread_stamped book (v : value) :
  let stamped := <["updatedAt" := v]> book in
  spread (spread {["updatedAt" := v]} stamped) stamped = stamped.
Proof.
  intros stamped. unfold spread. apply map_eq. intros key.
  destruct (stamped !! key) eqn:Hkey.
  - by rewrite lookup_union_l', Hkey by eauto.
  - rewrite !lookup_union_r by done.
    unfold stamped in Hkey. apply lookup_insert_None in Hkey as [_ Hne].
    by rewrite lookup_singleton_ne.
Qed.

(** On a record that carries its own key, [#updateBook] stamps
    [updatedAt] and writes nothing else. *)
Lemma updateBook_stored now ref book shelf :
  book !! "id" = Some (VString ref) ->
  updateBook now (FBook ref book) shelf =
    Some (true, shelfSet ref (<["updatedAt" := VString now]> book) shelf).
Proof.
  intros Hid. unfold updateBook.
  rewrite (getProp_own _ _ _ Hid). simpl.
  rewrite shelfGet_shelfSet_eq. simpl.
  by rewrite spread_stamped, shelfSet_shelfSet.
Qed.

Lemma getBooks_stored key book shelf :
  key <> "all" -> shelfGet key shelf = Some book ->
  getBooks (SelString key) shelf = Normal (FBook key book).
Proof. intros Hne Hget. simpl. by rewrite decide_False, Hget. Qed.

Lemma findBook_stored key book shelf :
  key <> "all" -> shelfGet key shelf = Some book ->
  findBook key shelf = Normal (true, FBook key book).
Proof.
  intros Hne Hget. unfold findBook.
  rewrite (proj2 (hasOwnProperty_true key shelf)) by eauto.
  by rewrite (getBooks_stored _ _ _ Hne Hget).
Qed.

Lemma findBook_absent key shelf :
  shelfGet key shelf = None -> findBook key shelf = Normal (false, FNull).
Proof.
  intros Hget. unfold findBook.
  by rewrite (proj2 (hasOwnProperty_false key shelf)).
Qed.

Lemma keyed_stored key book shelf :
  Forall keyed shelf -> shelfGet key shelf = Some book ->
  book !! "id" = Some (VString key) /\ key <> "all" /\ inherited key = false.
Proof.
  intros Hall Hget. destruct (shelfGet_Forall _ _ _ _ Hall Hget) as [Hid Hnano].
  simpl in *. eauto using isNanoid_not_all, isNanoid_not_inherited.
Qed.

(** The shelf after a PUT: untouched, or one record stamped. *)
Lemma putHandler_shelf now req shelf :
  Forall keyed shelf ->
  (putHandler now req shelf).2 = shelf \/
  exists ref book,
    shelfGet ref shelf = Some book /\
    (putHandler now req shelf).2 =
      shelfSet ref (<["updatedAt" := VString now]> book) shelf.
Proof.
  intros Hall. unfold putHandler.
  destruct (shelfGet (paramKey (bookId req)) shelf) as [book|] eqn:Hget.
  - destruct (keyed_stored _ _ _ Hall Hget) as (Hid & Hne & _).
    rewrite (findBook_stored _ _ _ Hne Hget). cbv beta iota. cbn [negb].
    destruct (validatePayloadOf _) as [result|msg]; [| by left].
    destruct (verdictStatus _); cbn [negb].
    + rewrite (updateBook_stored _ _ _ _ Hid). cbn [snd]. eauto.
    + left. repeat case_decide; done.
  - rewrite (findBook_absent _ _ Hget). by left.
Qed.

Lemma getHandler_shelf req shelf : (getHandler req shelf).2 = shelf.
Proof.
  unfold getHandler.
  repeat match goal with
         | |- context [match ?x with _ => _ end] => destruct x; simpl
         end; done.
Qed.

Lemma deleteHandler_shelf req shelf :
  (deleteHandler req shelf).2 = shelf \/
  (deleteHandler req shelf).2 = deleteBook (paramKey (bookId req)) shelf.
Proof.
  unfold deleteHandler.
  destruct (findBook _ _) as [[[] ?]|]; simpl; eauto.
Qed.

(** The shelf after a POST: untouched, or one record set under the new
    id, carrying that id. *)
Lemma postHandler_shelf id t1 t2 req shelf :
  (postHandler id t1 t2 req shelf).2 = shelf \/
  exists book,
    book !! "id" = Some (VString id) /\
    (postHandler id t1 t2 req shelf).2 = shelfSet id book shelf.
Proof.
  unfold postHandler.
  destruct (validatePayloadOf _) as [result|msg]; [| by left].
  destruct (verdictStatus _); simpl.
  - destruct (payload req) as [|sent|]; [by left | | by left].
    right. eexists. split; [| done]. by rewrite lookup_insert_eq.
  - left. repeat case_decide; done.
Qed.

(** The four shapes of a step. *)
Lemma step_shape shelf shelf' :
  Forall keyed shelf -> step shelf shelf' ->
  shelf' = shelf \/
  (exists id book,
      isNanoid id = true /\ shelfGet id shelf = None /\
      book !! "id" = Some (VString id) /\ shelf' = shelfSet id book shelf) \/
  (exists ref book now,
      shelfGet ref shelf = Some book /\
      shelf' = shelfSet ref (<["updatedAt" := VString now]> book) shelf) \/
  (exists key, shelf' = deleteBook key shelf).
Proof.
  intros Hall [id t1 t2 req Hnano Hfresh | req | now req | req].
  - destruct (postHandler_shelf id t1 t2 req shelf) as [->|(book & Hid & ->)];
      [by left | right; left; eauto 10].
  - left. apply getHandler_shelf.
  - destruct (putHandler_shelf now req shelf Hall) as [->|(ref & book & Hget & ->)];
      [by left | right; right; left; eauto 10].
  - destruct (deleteHandler_shelf req shelf) as [-> | ->];
      [by left | right; right; right; eauto].
Qed.

Lemma step_keyed shelf shelf' :
  Forall keyed shelf -> step shelf shelf' -> Forall keyed shelf'.
Proof.
  intros Hall Hstep.
  destruct (step_shape _ _ Hall Hstep)
    as [-> | [(id & book & Hnano & _ & Hid & ->)
           | [(ref & book & now & Hget & ->) | (key & ->)]]].
  - done.
  - by apply shelfSet_Forall.
  - apply shelfSet_Forall; [| done].
    destruct (shelfGet_Forall _ _ _ _ Hall Hget) as [Hid Hnano].
    split; simpl in *; [| done]. by rewrite lookup_insert_ne.
  - by apply deleteBook_Forall.
Qed.

Lemma reachable_keyed shelf : reachable shelf -> Forall keyed shelf.
Proof.
  unfold reachable. revert shelf.
  apply rtc_ind_r; [constructor | eauto using step_keyed].
Qed.

(** A step leaves [id] and [insertedAt] of the records it keeps. *)
Lemma step_preserves shelf shelf' key book book' :
  Forall keyed shelf -> step shelf shelf' ->
  shelfGet key shelf = Some book -> shelfGet key shelf' = Some book' ->
  book' !! "id" = book !! "id" /\
  book' !! "insertedAt" = book !! "insertedAt" /\
  forall field, field <> "updatedAt" -> book' !! field = book !! field.
Proof.
  intros Hall Hstep Hget Hget'.
  assert (book' = book \/ exists now, book' = <["updatedAt" := VString now]> book)
    as [-> | [now ->]];
    [| done | by repeat split; intros; rewrite lookup_insert_ne].
  destruct (step_shape _ _ Hall Hstep)
    as [-> | [(id & b & _ & Hfresh & _ & ->)
           | [(ref & b & now & Hb & ->) | (k & ->)]]].
  - left. congruence.
  - left. rewrite shelfGet_shelfSet_ne in Hget' by congruence. congruence.
  - destruct (decide (ref = key)) as [->|Hne].
    + rewrite shelfGet_shelfSet_eq in Hget'. right. exists now. congruence.
    + rewrite shelfGet_shelfSet_ne in Hget' by done. left. congruence.
  - destruct (decide (k = key)) as [->|Hne].
    + by rewrite shelfGet_deleteBook_eq in Hget'.
    + rewrite shelfGet_deleteBook_ne in Hget' by done. left. congruence.
Qed.
End Store.

(** ** The handlers on reachable shelves *)

Section Handlers.
Implicit Types (shelf : Shelf) (book sent : Book) (req : request).

(** PUT never answers 500: the validator says [generic error], the
    handler looks for [general error]. *)
Lemma putHandler_never_500 now req shelf r :
  (putHandler now req shelf).1 = Responded r -> code r <> 500.
Proof.
  unfold putHandler.
  destruct (findBook _ _) as [[[] data]|]; simpl; [| by intros [= <-] | done].
  destruct (payload req) as [|sent|]; simpl; [done | |].
  - destruct (validatePayload sent) as [st msg|] eqn:Hv; simpl.
    + destruct st; simpl.
      * destruct (updateBook _ _ _) as [[[] ?]|]; simpl; [by intros [= <-] | done..].
      * apply validatePayload_message in Hv as [-> | [-> | [-> | [? _]]]];
          [by intros [= <-].. | done].
    + by intros [= <-].
  - by intros [= <-].
Qed.

(** POST and PUT (on a stored id) answer a payload with a recognised key
    and a falsy or missing name with the empty-name message. *)
Lemma postHandler_emptyName id t1 t2 req sent shelf :
  payload req = BodyObject sent ->
  recognised sent = true ->
  truthy (getProp sent "name") = false ->
  postHandler id t1 t2 req shelf =
    (failure 400 "Gagal menambahkan buku. Mohon isi nama buku", shelf).
Proof.
  intros Hp Hr Hn. unfold postHandler. rewrite Hp. simpl.
  by rewrite (validatePayload_emptyName _ Hr Hn).
Qed.

Lemma putHandler_emptyName now req sent shelf key book :
  payload req = BodyObject sent ->
  bookId req = Some key -> key <> "all" -> shelfGet key shelf = Some book ->
  recognised sent = true ->
  truthy (getProp sent "name") = false ->
  putHandler now req shelf =
    (failure 400 "Gagal memperbarui buku. Mohon isi nama buku", shelf).
Proof.
  intros Hp Hkey Hne Hget Hr Hn. unfold putHandler. rewrite Hkey, Hp. simpl.
  rewrite (findBook_stored _ _ _ Hne Hget).
  by rewrite (validatePayload_emptyName _ Hr Hn).
Qed.

(** POST and PUT (on a stored id) answer a truthy name with
    [readPage > pageCount] with the page-count message, whatever the
    types of the fields are. *)
Lemma postHandler_readPage id t1 t2 req sent shelf :
  payload req = BodyObject sent ->
  truthy (getProp sent "name") = true ->
  greaterThan (getProp sent "readPage") (getProp sent "pageCount") = true ->
  postHandler id t1 t2 req shelf =
    (failure 400
       "Gagal menambahkan buku. readPage tidak boleh lebih besar dari pageCount",
     shelf).
Proof.
  intros Hp Hn Hgt. unfold postHandler. rewrite Hp. simpl.
  by rewrite (validatePayload_readPage _ Hn Hgt).
Qed.

Lemma putHandler_readPage now req sent shelf key book :
  payload req = BodyObject sent ->
  bookId req = Some key -> key <> "all" -> shelfGet key shelf = Some book ->
  truthy (getProp sent "name") = true ->
  greaterThan (getProp sent "readPage") (getProp sent "pageCount") = true ->
  putHandler now req shelf =
    (failure 400
       "Gagal memperbarui buku. readPage tidak boleh lebih besar dari pageCount",
     shelf).
Proof.
  intros Hp Hkey Hne Hget Hn Hgt. unfold putHandler. rewrite Hkey, Hp. simpl.
  rewrite (findBook_stored _ _ _ Hne Hget).
  by rewrite (validatePayload_readPage _ Hn Hgt).
Qed.

(** GET by id, away from the word [all] and from the members of
    [Object.prototype]: 404 for an id that is not stored, the record for
    one that is. *)
Lemma getHandler_by_id payload id shelf :
  id <> "" -> id <> "all" -> inherited id = false ->
  getHandler (Request payload (Some id) []) shelf =
    match shelfGet id shelf with
    | Some book =>
        (Responded (Response 200 "success" None (DataBook (FBook id book))), shelf)
    | None =>
        (Responded (Response 404 "fail" (Some "Buku tidak ditemukan") NoData), shelf)
    end.
Proof.
  intros Hne Hall Hinh. unfold getHandler. simpl.
  destruct (String.eqb_spec id ""); [done |]. simpl.
  rewrite decide_False by done.
  destruct (shelfGet id shelf); [done |]. by rewrite Hinh.
Qed.
End Handlers.

(** * The claims of the specification *)

(** C1 (the code departs from the claim).  The claim: a successful update
    overwrites the stored fields that the payload gives.  On the code, a PUT
    of the valid payload [revised] (year 1970) for the stored book of year
    1965 answers 200, and the stored year is still 1965: the handler passes
    the stored record, not the payload, to [#updateBook]. *)
Theorem put_keeps_stored_year :
  let req := Request revised (Some duneId) [] in
  validatePayload revised = Verdict true "ok" /\
  getProp revised "year" = VNumber 1970 /\
  (putHandler later req oneBook).1 =
    Responded (Response 200 "success" (Some "Buku berhasil diperbarui") NoData) /\
  (fun book => (getProp book "year", getProp book "updatedAt"))
    <$> shelfGet duneId (putHandler later req oneBook).2 =
    Some (VNumber 1965, VString later).
Proof. vm_compute. repeat split; reflexivity. Qed.

(** C2 (the code departs from the claim).  The claim: the filter returns the
    books that pass every term.  On the code, the stored book passes both
    terms of the query [name=dun&reading=0], and the filter returns no
    book: the test on [isPassed] and its reset sit inside the loop over the
    terms. *)
Theorem filter_two_terms_drops_match :
  (fun book =>
     (getProp book "name", termMatches book "name" "dun",
      termMatches book "reading" "0")) <$> values oneBook =
    [(VString "Dune", true, true)] /\
  filterBooksBasedOnQuerys [("name", "dun"); ("reading", "0")] oneBook = Normal [].
Proof. vm_compute. repeat split; reflexivity. Qed.

(** C3 (the code departs from the claim).  The claim: a missing name fails
    with the empty-name kind.  On the code, the empty payload, which has no
    name, is answered by POST and by PUT with the message of
    [readPage > pageCount]: the validator falls through to its bare
    [return false]. *)
Theorem empty_payload_blames_readPage :
  getProp ∅ "name" = VUndefined /\
  validatePayload ∅ = BareFalse /\
  (postHandler duneId noon noon (Request ∅ None []) []).1 =
    failure 400
      "Gagal menambahkan buku. readPage tidak boleh lebih besar dari pageCount" /\
  (putHandler later (Request ∅ (Some duneId) []) oneBook).1 =
    failure 400
      "Gagal memperbarui buku. readPage tidak boleh lebih besar dari pageCount".
Proof. vm_compute. repeat split; reflexivity. Qed.

(** C4 (the code departs from the claim).  The claim: an update whose only
    fault is a value of the wrong type fails with 500.  On the code, the
    payload [numericName] is rejected by the validator with its generic
    message, POST answers it with 500, and PUT answers it with 400 and the
    page-count message: PUT compares the message with [general error]. *)
Theorem put_generic_answers_400 :
  validatePayload numericName = Verdict false genericMessage /\
  (postHandler duneId noon noon (Request numericName None []) []).1 =
    failure 500 "Buku gagal ditambahkan" /\
  (putHandler later (Request numericName (Some duneId) []) oneBook).1 =
    failure 400
      "Gagal memperbarui buku. readPage tidak boleh lebih besar dari pageCount".
Proof. vm_compute. repeat split; reflexivity. Qed.

(** C5 (the code departs from the claim).  The claim: the validator rejects
    a payload in which a recognised field has a value of the wrong type.  On
    the code, the payload [wordedYear], whose year is a string, is accepted
    and stored: the loop returns at the first recognised key, [name]. *)
Theorem validator_accepts_worded_year :
  typeof (getProp wordedYear "year") = "string" /\
  validatePayload wordedYear = Verdict true "ok" /\
  (postHandler duneId noon noon (Request wordedYear None []) []).1 =
    Responded
      (Response 201 "success" (Some "Buku berhasil ditambahkan") (DataBookId duneId)).
Proof. vm_compute. repeat split; reflexivity. Qed.




(** C7, as stated, fails: the payload is accepted, and the book retrieved
    after its creation has an [updatedAt] that differs from its
    [insertedAt], the clock having moved between the two readings. *)
Lemma create_reads_clock_twice :
  validatePayload dune = Verdict true "ok" /\
  (fun book => (getProp book "insertedAt", getProp book "updatedAt"))
    <$> retrieved
          (getHandler (Request ∅ (Some duneId) [])
             (postHandler duneId noon noon1 (Request dune None []) []).2).1 =
    Some (VString noon, VString noon1) /\
  noon <> noon1.
Proof. vm_compute. repeat split; [reflexivity.. | discriminate]. Qed.

(** C7, amended.  For a payload that the validator accepts, POST answers
    201 with the new id and sets one record under it; a GET of that id then
    answers 200 with this record, whose [finished] is
    [pageCount === readPage] of the payload, whose [insertedAt] is the first
    clock reading and whose [updatedAt] is the second: the two are equal
    when the clock has not moved in between.  Under an id that the shelf did
    not hold, the record is one more entry at the end. *)
Theorem create_then_retrieve (id t1 t2 : string) (req : request)
    (sent : Book) (shelf : Shelf) (other : body) :
  validatePayloadOf (payload req) = Normal (Verdict true "ok") ->
  payload req = BodyObject sent ->
  isNanoid id = true ->
  exists book : Book,
    postHandler id t1 t2 req shelf =
      (Responded
         (Response 201 "success" (Some "Buku berhasil ditambahkan") (DataBookId id)),
       shelfSet id book shelf) /\
    getHandler (Request other (Some id) []) (shelfSet id book shelf) =
      (Responded (Response 200 "success" None (DataBook (FBook id book))),
       shelfSet id book shelf) /\
    book !! "finished" =
      Some (VBool (strictEquals (getProp sent "pageCount")
                                (getProp sent "readPage"))) /\
    book !! "insertedAt" = Some (VString t1) /\
    book !! "updatedAt" = Some (VString t2) /\
    (t1 = t2 -> book !! "insertedAt" = book !! "updatedAt") /\
    (shelfGet id shelf = None ->
     values (shelfSet id book shelf) = (values shelf ++ [book])%list).
Proof.
  intros Hok Hsent Hnano. unfold postHandler, addBook.
  rewrite Hok, Hsent. cbn [verdictStatus].
  eexists. split; [reflexivity |].
  split.
  { rewrite getHandler_by_id.
    - by rewrite shelfGet_shelfSet_eq.
    - intros ->. discriminate Hnano.
    - by apply isNanoid_not_all.
    - by apply isNanoid_not_inherited. }
  repeat split.
  - rewrite !lookup_insert_ne by done. apply lookup_insert_eq.
  - rewrite !lookup_insert_ne by done. apply lookup_insert_eq.
  - rewrite !lookup_insert_ne by done. apply lookup_insert_eq.
  - intros ->. by simplify_map_eq.
  - intros Hfresh. rewrite (shelfSet_fresh _ _ _ Hfresh).
    unfold values. by rewrite map_app.
Qed.

(** The amended C7 at the payload [dune], on the empty shelf, with a clock
    that stands still. *)
Lemma create_then_retrieve_witness :
  validatePayload dune = Verdict true "ok" /\
  isNanoid duneId = true /\
  exists book : Book,
    getHandler (Request ∅ (Some duneId) []) (shelfSet duneId book []) =
      (Responded (Response 200 "success" None (DataBook (FBook duneId book))),
       shelfSet duneId book []) /\
    book !! "finished" = Some (VBool true) /\
    book !! "insertedAt" = book !! "updatedAt".
Proof.
  split; [reflexivity |]. split; [reflexivity |].
  destruct (create_then_retrieve duneId noon noon (Request dune None []) dune [] ∅)
    as (book & _ & Hget & Hfin & _ & _ & Heq & _); [reflexivity.. |].
  exists book. split; [exact Hget |]. split; [exact Hfin | by apply Heq].
Defined.

(** C8 (the code departs from the claim).  The claim: a GET by an id under
    which no book is stored answers 404, for arbitrary id strings.  On the
    code, with an empty shelf, the id [all] is answered 200 with the list of
    books as the book, and the id [toString] 200 with a member of
    [Object.prototype]; DELETE, which asks [hasOwnProperty], answers 404 to
    both. *)
Theorem get_unstored_id_answers_200 :
  shelfGet "all" [] = None /\
  (getHandler (Request ∅ (Some "all") []) []).1 =
    Responded (Response 200 "success" None (DataBook (FBooks []))) /\
  (getHandler (Request ∅ (Some "toString") []) []).1 =
    Responded (Response 200 "success" None (DataBook (FBuiltin "toString"))) /\
  (deleteHandler (Request ∅ (Some "all") []) []).1 =
    failure 404 "Buku gagal dihapus. Id tidak ditemukan" /\
  (deleteHandler (Request ∅ (Some "toString") []) []).1 =
    failure 404 "Buku gagal dihapus. Id tidak ditemukan".
Proof. vm_compute. repeat split; reflexivity. Qed.

(** C9.  For every shelf and every two query terms, the filter returns the
    same books whichever of the two terms comes first. *)
Theorem filter_term_order (shelf : Shelf) (a x b y : string) :
  filterBooksBasedOnQuerys [(a, x); (b, y)] shelf =
  filterBooksBasedOnQuerys [(b, y); (a, x)] shelf.
Proof. rewrite !filter_many_terms by (simpl; lia). reflexivity. Qed.

(** C10.  On every shelf reached from the empty one by POST, GET, PUT and
    DELETE requests, each record has as [id] the key it is stored under;
    and a further request leaves the [id] and the [insertedAt] of every
    record that it keeps on the shelf. *)
Theorem stored_id_and_insertedAt_stable (shelf : Shelf) :
  reachable shelf ->
  Forall (fun entry => entry.2 !! "id" = Some (VString entry.1)) shelf /\
  forall (shelf' : Shelf) (key : string) (book book' : Book),
    step shelf shelf' ->
    shelfGet key shelf = Some book ->
    shelfGet key shelf' = Some book' ->
    book' !! "id" = book !! "id" /\
    book' !! "insertedAt" = book !! "insertedAt".
Proof.
  intros Hall%reachable_keyed. split.
  - eapply Forall_impl; [exact Hall |]. by intros entry [Hid _].
  - intros shelf' key book book' Hstep Hget Hget'.
    destruct (step_preserves _ _ _ _ _ Hall Hstep Hget Hget') as (? & ? & _).
    done.
Qed.

(** C10 at the shelf that one POST of [dune] makes. *)
Lemma stored_id_and_insertedAt_stable_witness :
  reachable oneBook /\
  Forall (fun entry => entry.2 !! "id" = Some (VString entry.1)) oneBook.
Proof.
  assert (reachable oneBook) as Hreach.
  { apply rtc_once.
    apply (step_create [] duneId noon noon (Request dune None []));
      reflexivity. }
  split; [exact Hreach |].
  exact (proj1 (stored_id_and_insertedAt_stable oneBook Hreach)).
Defined.


(** * Further properties of the code *)

(** ** Auxiliary facts *)

Lemma lower_ascii_idemp (c : ascii) : lower_ascii (lower_ascii c) = lower_ascii c.
Proof. destruct c as [[] [] [] [] [] [] [] []]; reflexivity. Qed.

Lemma toLowerCase_idemp (s : string) : toLowerCase (toLowerCase s) = toLowerCase s.
Proof.
  induction s as [|c rest IH]; simpl; [done |].
  by rewrite lower_ascii_idemp, IH.
Qed.




Lemma deleteBook_absent (key : string) (shelf : Shelf) :
  shelfGet key shelf = None -> deleteBook key shelf = shelf.
Proof.
  induction shelf as [|[k b] rest IH]; simpl; [done |].
  destruct (decide (k = key)) as [->|Hne]; [done |].
  intros Hget. rewrite bool_decide_false by done. simpl. by rewrite IH.
Qed.

Lemma deleteBook_app (key : string) (shelf rest : Shelf) :
  deleteBook key (shelf ++ rest) = (deleteBook key shelf ++ deleteBook key rest)%list.
Proof. unfold deleteBook. apply List.filter_app. Qed.

Lemma keys_shelfSet_stored (key : string) (book : Book) (shelf : Shelf) :
  is_Some (shelfGet key shelf) -> keys (shelfSet key book shelf) = keys shelf.
Proof.
  induction shelf as [|[k b] rest IH]; simpl; [by intros [? [=]] |].
  destruct (decide (k = key)) as [->|Hne]; simpl; [done |].
  intros Hsome. by rewrite IH.
Qed.

Lemma shelfGet_None_keys (key : string) (shelf : Shelf) :
  shelfGet key shelf = None <-> key ∉ keys shelf.
Proof.
  induction shelf as [|[k b] rest IH]; simpl.
  - split; [intros _; apply not_elem_of_nil | done].
  - rewrite not_elem_of_cons. destruct (decide (k = key)) as [->|Hne].
    + split; [done | by intros [? _]].
    + rewrite IH. split; [by split | by intros [_ ?]].
Qed.

Lemma keys_deleteBook (key : string) (shelf : Shelf) :
  keys (deleteBook key shelf) =
    List.filter (fun k => negb (bool_decide (k = key))) (keys shelf).
Proof.
  induction shelf as [|[k b] rest IH]; simpl; [done |].
  destruct (negb _); simpl; by rewrite IH.
Qed.

Lemma oneBook_reachable : reachable oneBook.
Proof.
  apply rtc_once.
  apply (step_create [] duneId noon noon (Request dune None [])); reflexivity.
Qed.

Lemma oneBook_holds_dune : is_Some (shelfGet duneId oneBook).
Proof. vm_compute. eauto. Qed.

(** ** Unknown ids, deletion and failed requests *)

(** X1.  PUT and DELETE for an id that is not a key of the shelf (also a
    missing id parameter) answer 404 and leave the shelf as it is; PUT does
    so before it looks at the payload. *)
Theorem unknown_id_is_not_found (now : string) (req : request) (shelf : Shelf) :
  shelfGet (paramKey (bookId req)) shelf = None ->
  putHandler now req shelf =
    (failure 404 "Gagal memperbarui buku. Id tidak ditemukan", shelf) /\
  deleteHandler req shelf =
    (failure 404 "Buku gagal dihapus. Id tidak ditemukan", shelf).
Proof.
  intros Hget. unfold putHandler, deleteHandler.
  by rewrite (findBook_absent _ _ Hget).
Qed.

(** X1 on a shelf with one book, for a request without id and without any
    payload field. *)
Lemma unknown_id_is_not_found_witness :
  putHandler later (Request ∅ None []) oneBook =
    (failure 404 "Gagal memperbarui buku. Id tidak ditemukan", oneBook) /\
  deleteHandler (Request ∅ None []) oneBook =
    (failure 404 "Buku gagal dihapus. Id tidak ditemukan", oneBook).
Proof. apply (unknown_id_is_not_found later (Request ∅ None []) oneBook). reflexivity. Defined.

(** X2.  On a reachable shelf, DELETE of a stored id answers 200 and removes
    that record only; after it GET, PUT and a second DELETE of the id all
    answer 404. *)
Theorem delete_then_not_found (shelf : Shelf) (id now : string) (book : Book)
    (req : request) (other : Book) :
  reachable shelf ->
  shelfGet id shelf = Some book ->
  bookId req = Some id ->
  let shelf' := deleteBook id shelf in
  deleteHandler req shelf =
    (Responded (Response 200 "success" (Some "Buku berhasil dihapus") NoData),
     shelf') /\
  shelfGet id shelf' = None /\
  (forall key, key <> id -> shelfGet key shelf' = shelfGet key shelf) /\
  getHandler (Request other (Some id) []) shelf' =
    (Responded (Response 404 "fail" (Some "Buku tidak ditemukan") NoData), shelf') /\
  putHandler now (Request other (Some id) []) shelf' =
    (failure 404 "Gagal memperbarui buku. Id tidak ditemukan", shelf') /\
  deleteHandler req shelf' =
    (failure 404 "Buku gagal dihapus. Id tidak ditemukan", shelf').
Proof.
  intros Hall%reachable_keyed Hget Hid shelf'.
  destruct (shelfGet_Forall _ _ _ _ Hall Hget) as [_ Hnano]. simpl in Hnano.
  assert (shelfGet id shelf' = None) as Hgone by apply shelfGet_deleteBook_eq.
  split.
  { unfold deleteHandler. rewrite Hid. simpl.
    by rewrite (findBook_stored _ _ _ (isNanoid_not_all _ Hnano) Hget). }
  split; [done |]. split.
  { intros key Hne. by apply shelfGet_deleteBook_ne. }
  split.
  { rewrite getHandler_by_id, Hgone; [done | | |].
    - intros ->. discriminate Hnano.
    - by apply isNanoid_not_all.
    - by apply isNanoid_not_inherited. }
  split.
  - unfold putHandler. simpl. by rewrite (findBook_absent _ _ Hgone).
  - unfold deleteHandler. rewrite Hid. simpl. by rewrite (findBook_absent _ _ Hgone).
Qed.

(** X2 at the shelf that holds the one book [dune]. *)
Lemma delete_then_not_found_witness :
  deleteHandler (Request ∅ (Some duneId) []) oneBook =
    (Responded (Response 200 "success" (Some "Buku berhasil dihapus") NoData),
     deleteBook duneId oneBook) /\
  getHandler (Request ∅ (Some duneId) []) (deleteBook duneId oneBook) =
    (Responded (Response 404 "fail" (Some "Buku tidak ditemukan") NoData),
     deleteBook duneId oneBook).
Proof.
  destruct oneBook_holds_dune as [book Hbook].
  destruct (delete_then_not_found oneBook duneId later book
              (Request ∅ (Some duneId) []) ∅ oneBook_reachable Hbook eq_refl)
    as (Hdel & _ & _ & Hget & _).
  split; [exact Hdel | exact Hget].
Defined.

(** X3.  A request that is answered with status [fail] leaves the shelf as
    it was, whatever the verb, the request and the shelf. *)
Theorem failed_request_leaves_shelf (method : string)
    (handler : environment -> request -> Shelf -> outcome * Shelf)
    (env : environment) (req : request) (shelf : Shelf) (r : response) :
  handleMethod method = Some handler ->
  (handler env req shelf).1 = Responded r ->
  status r = "fail" ->
  (handler env req shelf).2 = shelf.
Proof.
  unfold handleMethod.
  repeat (destruct (String.eqb _ _)); intros [= <-].
  - intros _ _. apply getHandler_shelf.
  - unfold postHandler.
    destruct (validatePayloadOf _) as [result|msg]; [| done].
    destruct (verdictStatus _); simpl.
    + destruct (payload req) as [|sent|]; [done | by intros [= <-] | done].
    + intros _ _. repeat case_decide; done.
  - unfold putHandler.
    destruct (findBook _ _) as [[[] data]|]; simpl; [| done..].
    destruct (validatePayloadOf _) as [result|msg]; [| done].
    destruct (verdictStatus _); simpl.
    + destruct (updateBook _ _ _) as [[[] ?]|]; simpl; [by intros [= <-] | done..].
    + intros _ _. repeat case_decide; done.
  - unfold deleteHandler.
    destruct (findBook _ _) as [[[] data]|]; simpl; [by intros [= <-] | done..].
Qed.

(** X3 for a POST without name on the shelf with one book. *)
Lemma failed_request_leaves_shelf_witness :
  (postHandler duneId noon noon (Request ∅ None []) oneBook).2 = oneBook.
Proof.
  apply (failed_request_leaves_shelf "POST"
           (fun env => postHandler (nanoid env) (clock1 env) (clock2 env))
           (Environment duneId noon noon) (Request ∅ None []) oneBook
           (Response 400 "fail"
              (Some "Gagal menambahkan buku. readPage tidak boleh lebih besar dari pageCount")
              NoData));
    reflexivity.
Defined.

(** ** What a write stores *)

(** X4.  On a reachable shelf, a PUT for a stored id with a payload that the
    validator accepts answers 200, sets [updatedAt] of that record to the
    clock reading and writes nothing else: the other fields of the record,
    the other records and the order of the keys stay; a GET of the id then
    answers with the re-stamped record. *)
Theorem put_success_stamps_updatedAt (shelf : Shelf) (id now : string)
    (book : Book) (other : body) (req : request) :
  reachable shelf ->
  shelfGet id shelf = Some book ->
  bookId req = Some id ->
  validatePayloadOf (payload req) = Normal (Verdict true "ok") ->
  let stamped := <["updatedAt" := VString now]> book in
  let shelf' := shelfSet id stamped shelf in
  putHandler now req shelf =
    (Responded (Response 200 "success" (Some "Buku berhasil diperbarui") NoData),
     shelf') /\
  keys shelf' = keys shelf /\
  (forall key, key <> id -> shelfGet key shelf' = shelfGet key shelf) /\
  (forall field, field <> "updatedAt" -> stamped !! field = book !! field) /\
  getHandler (Request other (Some id) []) shelf' =
    (Responded (Response 200 "success" None (DataBook (FBook id stamped))), shelf').
Proof.
  intros Hall%reachable_keyed Hget Hid Hok stamped shelf'.
  destruct (keyed_stored _ _ _ Hall Hget) as (Hown & Hne & Hinh).
  destruct (shelfGet_Forall _ _ _ _ Hall Hget) as [_ Hnano]. simpl in Hnano.
  split.
  { unfold putHandler.
    assert (paramKey (bookId req) = id) as -> by (by rewrite Hid).
    rewrite (findBook_stored _ _ _ Hne Hget). cbv beta iota.
    rewrite Hok. cbn [verdictStatus negb].
    by rewrite (updateBook_stored _ _ _ _ Hown). }
  split; [apply keys_shelfSet_stored; eauto |].
  split; [intros key Hkey; by apply shelfGet_shelfSet_ne |].
  split; [intros field Hfield; by apply lookup_insert_ne |].
  rewrite getHandler_by_id; [| by intros ->; discriminate Hnano | done..].
  unfold shelf'. by rewrite shelfGet_shelfSet_eq.
Qed.

(** X4 for the payload [revised] sent to the stored book. *)
Lemma put_success_stamps_updatedAt_witness :
  exists book : Book,
    shelfGet duneId oneBook = Some book /\
    putHandler later (Request revised (Some duneId) []) oneBook =
      (Responded (Response 200 "success" (Some "Buku berhasil diperbarui") NoData),
       shelfSet duneId (<["updatedAt" := VString later]> book) oneBook).
Proof.
  destruct oneBook_holds_dune as [book Hbook]. exists book.
  split; [exact Hbook |].
  apply (put_success_stamps_updatedAt oneBook duneId later book ∅
           (Request revised (Some duneId) []) oneBook_reachable Hbook);
    reflexivity.
Defined.

(** X5.  When the validator accepts the payload, POST stores under the new
    id a record with that id as [id], whatever [id], [finished],
    [insertedAt] or [updatedAt] the payload carried, and with every other
    field of the payload as it was sent, recognised or not. *)
Theorem create_stores_payload_fields (id t1 t2 : string) (req : request)
    (sent : Book) (shelf : Shelf) :
  validatePayloadOf (payload req) = Normal (Verdict true "ok") ->
  payload req = BodyObject sent ->
  exists book : Book,
    shelfGet id (postHandler id t1 t2 req shelf).2 = Some book /\
    book !! "id" = Some (VString id) /\
    book !! "finished" =
      Some (VBool (strictEquals (getProp sent "pageCount")
                                (getProp sent "readPage"))) /\
    forall field,
      field ∉ ["finished"; "insertedAt"; "updatedAt"; "id"] ->
      book !! field = sent !! field.
Proof.
  intros Hok Hsent. unfold postHandler, addBook.
  rewrite Hok, Hsent. cbn [verdictStatus snd].
  eexists. split; [apply shelfGet_shelfSet_eq |].
  split; [apply lookup_insert_eq |]. split.
  - rewrite !lookup_insert_ne by done. apply lookup_insert_eq.
  - intros field Hfield.
    rewrite !not_elem_of_cons in Hfield. destruct Hfield as (? & ? & ? & ? & _).
    by rewrite !lookup_insert_ne.
Qed.

(** X5 for a payload that brings its own [id] and [finished]. *)
Lemma create_stores_payload_fields_witness :
  forged !! "id" = Some (VString "mine") /\
  exists book : Book,
    shelfGet duneId (postHandler duneId noon noon (Request forged None []) []).2 =
      Some book /\
    book !! "id" = Some (VString duneId) /\
    book !! "finished" = Some (VBool true) /\
    book !! "author" = forged !! "author".
Proof.
  split; [reflexivity |].
  destruct (create_stores_payload_fields duneId noon noon
              (Request forged None []) forged [])
    as (book & Hget & Hid & Hfin & Hrest); [reflexivity.. |].
  exists book. split; [exact Hget |]. split; [exact Hid |].
  split; [exact Hfin |]. apply Hrest.
  rewrite !not_elem_of_cons. repeat split; (discriminate || apply not_elem_of_nil).
Defined.

(** X6.  A POST that stores a book under an id the shelf did not hold,
    followed by a DELETE of that id, gives back the shelf from before the
    POST. *)
Theorem create_then_delete (id t1 t2 : string) (req del : request) (shelf : Shelf) :
  validatePayloadOf (payload req) = Normal (Verdict true "ok") ->
  shelfGet id shelf = None ->
  bookId del = Some id ->
  deleteHandler del (postHandler id t1 t2 req shelf).2 =
    (Responded (Response 200 "success" (Some "Buku berhasil dihapus") NoData),
     shelf).
Proof.
  intros Hok Hfresh Hid. unfold postHandler, addBook. rewrite Hok.
  destruct (payload req) as [|sent|]; [discriminate Hok | | discriminate Hok].
  cbn [verdictStatus snd].
  unfold deleteHandler, findBook.
  assert (paramKey (bookId del) = id) as -> by (by rewrite Hid).
  rewrite (proj2 (hasOwnProperty_true _ _))
    by (rewrite shelfGet_shelfSet_eq; eauto).
  assert (forall b, deleteBook id (shelfSet id b shelf) = shelf) as Hback.
  { intros b. rewrite (shelfSet_fresh _ _ _ Hfresh), deleteBook_app.
    rewrite (deleteBook_absent _ _ Hfresh). simpl.
    rewrite bool_decide_true by done. simpl. apply app_nil_r. }
  simpl. destruct (decide (id = "all")); simpl; by rewrite Hback.
Qed.

(** X6 on the shelf with one book, for a second book. *)
Lemma create_then_delete_witness :
  deleteHandler (Request ∅ (Some "aaaaaaaaaaaaaaaaaaaaa") [])
    (postHandler "aaaaaaaaaaaaaaaaaaaaa" noon noon (Request dune None []) oneBook).2 =
    (Responded (Response 200 "success" (Some "Buku berhasil dihapus") NoData),
     oneBook).
Proof.
  apply (create_then_delete "aaaaaaaaaaaaaaaaaaaaa" noon noon
           (Request dune None []) (Request ∅ (Some "aaaaaaaaaaaaaaaaaaaaa") [])
           oneBook);
    reflexivity.
Defined.

(** ** Reading *)


(** X8.  [handleMethod] looks at the verb in lower case only: it gives a
    handler exactly for get, post, put and delete in any mix of cases, and
    nothing for any other verb. *)
Theorem handleMethod_verbs (method : string) :
  handleMethod method = handleMethod (toLowerCase method) /\
  (is_Some (handleMethod method) <-> toLowerCase method ∈ handledMethods).
Proof.
  unfold handleMethod, handledMethods. rewrite toLowerCase_idemp.
  split; [done |]. rewrite !elem_of_cons, elem_of_nil.
  generalize (toLowerCase method). intros verb.
  destruct (String.eqb_spec verb "get"); [split; eauto |].
  destruct (String.eqb_spec verb "post"); [split; eauto |].
  destruct (String.eqb_spec verb "put"); [split; eauto |].
  destruct (String.eqb_spec verb "delete"); [split; eauto 6 |].
  split; [by intros [? [=]] | tauto].
Qed.

(** ** Validation as the handlers report it *)

Lemma validatePayload_true (book : Book) (msg : string) :
  validatePayload book = Verdict true msg -> msg = "ok".
Proof.
  rewrite validatePayload_unfold.
  repeat (destruct (negb _) || destruct (greaterThan _ _)); by intros [= <-].
Qed.

(** X9.  POST answers 201 exactly when the payload is an object with an own
    [name] that is a non-empty string and with a [readPage] that is not
    greater than its [pageCount]; no other field is looked at. *)
Theorem create_answers_201_iff (id t1 t2 : string) (req : request) (shelf : Shelf) :
  (exists r, (postHandler id t1 t2 req shelf).1 = Responded r /\ code r = 201) <->
  exists sent : Book,
    payload req = BodyObject sent /\
    (exists s, sent !! "name" = Some (VString s) /\ s <> "") /\
    greaterThan (getProp sent "readPage") (getProp sent "pageCount") = false.
Proof.
  unfold postHandler. split.
  - destruct (payload req) as [|sent|]; simpl.
    + by intros (r & [=] & _).
    + intros Hr. exists sent. split; [done |]. apply validatePayload_accepts.
      destruct (validatePayload sent) as [[] msg|] eqn:Hv; simpl in Hr.
      * by rewrite (validatePayload_true _ _ Hv).
      * destruct Hr as (r & Hr & Hcode). revert Hr Hcode.
        repeat case_decide; intros [= <-]; done.
      * by destruct Hr as (r & [= <-] & Hcode).
    + by intros (r & [= <-] & Hcode).
  - intros (sent & -> & Hok%validatePayload_accepts). simpl. rewrite Hok.
    simpl. eauto.
Qed.

(** X10.  For an object payload with at least one recognised key, POST
    answers 400 with the empty-name message when [name] is missing or
    falsy, also when [readPage] exceeds [pageCount]; and 400 with the
    page-count message when [name] is truthy and [readPage] exceeds
    [pageCount], whatever the types of the fields.  The shelf stays as it
    is. *)
Theorem post_rejection_precedence (id t1 t2 : string) (req : request)
    (sent : Book) (shelf : Shelf) :
  payload req = BodyObject sent ->
  recognised sent = true ->
  (truthy (getProp sent "name") = false ->
   postHandler id t1 t2 req shelf =
     (failure 400 "Gagal menambahkan buku. Mohon isi nama buku", shelf)) /\
  (truthy (getProp sent "name") = true ->
   greaterThan (getProp sent "readPage") (getProp sent "pageCount") = true ->
   postHandler id t1 t2 req shelf =
     (failure 400
        "Gagal menambahkan buku. readPage tidak boleh lebih besar dari pageCount",
      shelf)).
Proof.
  intros Hp Hr. split.
  - intros Hn. by eapply postHandler_emptyName.
  - intros Hn Hgt. by eapply postHandler_readPage.
Qed.

(** X10 for a payload without name whose [readPage] exceeds its
    [pageCount]: the empty name is what is reported. *)
Lemma post_rejection_precedence_witness :
  greaterThan (getProp nameless "readPage") (getProp nameless "pageCount") = true /\
  postHandler duneId noon noon (Request nameless None []) oneBook =
    (failure 400 "Gagal menambahkan buku. Mohon isi nama buku", oneBook).
Proof.
  split; [reflexivity |].
  apply (post_rejection_precedence duneId noon noon (Request nameless None [])
           nameless oneBook);
    reflexivity.
Defined.

(** X11.  The same for PUT on a reachable shelf and a stored id: an object
    payload with a recognised key and a missing or falsy [name] gets 400
    with the empty-name message; a truthy [name] with [readPage] above
    [pageCount] gets 400 with the page-count message.  Only the payload's
    own two page fields are compared, not those of the stored record. *)
Theorem put_rejection_precedence (now id : string) (book sent : Book)
    (req : request) (shelf : Shelf) :
  reachable shelf ->
  shelfGet id shelf = Some book ->
  bookId req = Some id ->
  payload req = BodyObject sent ->
  recognised sent = true ->
  (truthy (getProp sent "name") = false ->
   putHandler now req shelf =
     (failure 400 "Gagal memperbarui buku. Mohon isi nama buku", shelf)) /\
  (truthy (getProp sent "name") = true ->
   greaterThan (getProp sent "readPage") (getProp sent "pageCount") = true ->
   putHandler now req shelf =
     (failure 400
        "Gagal memperbarui buku. readPage tidak boleh lebih besar dari pageCount",
      shelf)).
Proof.
  intros Hall%reachable_keyed Hget Hid Hp Hr.
  destruct (keyed_stored _ _ _ Hall Hget) as (_ & Hne & _). split.
  - intros Hn. by eapply putHandler_emptyName.
  - intros Hn Hgt. by eapply putHandler_readPage.
Qed.

(** X11 for the payload [{readPage: 600}] sent to the stored book, whose
    [pageCount] is 500: the answer is the empty-name message. *)
Lemma put_rejection_precedence_witness :
  putHandler later (Request overread (Some duneId) []) oneBook =
    (failure 400 "Gagal memperbarui buku. Mohon isi nama buku", oneBook).
Proof.
  destruct oneBook_holds_dune as [book Hbook].
  apply (put_rejection_precedence later duneId book overread
           (Request overread (Some duneId) []) oneBook
           oneBook_reachable Hbook);
    reflexivity.
Defined.

(** ** The filter *)




(** ** Reachable shelves *)


Lemma reachable_NoDup (shelf : Shelf) : reachable shelf -> NoDup (keys shelf).
Proof.
  unfold reachable. revert shelf. apply rtc_ind_r; [constructor |].
  intros shelf shelf' Hreach Hstep Hnodup.
  destruct (step_shape _ _ (reachable_keyed _ Hreach) Hstep)
    as [-> | [(id & book & _ & Hfresh & _ & ->)
           | [(ref & book & now & Hget & ->) | (key & ->)]]].
  - done.
  - rewrite (shelfSet_fresh _ _ _ Hfresh). unfold keys. rewrite map_app. simpl.
    apply NoDup_app. split; [done |]. split; [| apply NoDup_singleton].
    intros k Hk ->%list_elem_of_singleton.
    by apply (proj1 (shelfGet_None_keys _ _) Hfresh).
  - rewrite keys_shelfSet_stored by eauto. done.
  - rewrite keys_deleteBook.
    by apply NoDup_ListNoDup, List.NoDup_filter, NoDup_ListNoDup.
Qed.

(** X14.  The keys of a reachable shelf are pairwise distinct, and one more
    request either leaves their sequence as it is (GET, PUT, any failed
    request), or puts one new key at its end (POST), or takes one key out
    (DELETE): books are listed in the order of their creation. *)
Theorem request_keeps_listing_order (shelf shelf' : Shelf) :
  reachable shelf ->
  step shelf shelf' ->
  NoDup (keys shelf) /\
  (keys shelf' = keys shelf \/
   (exists id, (id ∉ keys shelf) /\ keys shelf' = (keys shelf ++ [id])%list) \/
   (exists id,
      keys shelf' =
        List.filter (fun key => negb (bool_decide (key = id))) (keys shelf))).
Proof.
  intros Hreach Hstep. split; [by apply reachable_NoDup |].
  destruct (step_shape _ _ (reachable_keyed _ Hreach) Hstep)
    as [-> | [(id & book & _ & Hfresh & _ & ->)
           | [(ref & book & now & Hget & ->) | (key & ->)]]].
  - by left.
  - right; left. exists id. split; [by apply shelfGet_None_keys |].
    rewrite (shelfSet_fresh _ _ _ Hfresh). unfold keys. by rewrite map_app.
  - left. apply keys_shelfSet_stored. eauto.
  - right; right. exists key. apply keys_deleteBook.
Qed.

(** X14 for a second POST on the shelf with one book. *)
Lemma request_keeps_listing_order_witness :
  NoDup (keys oneBook) /\
  keys (postHandler "aaaaaaaaaaaaaaaaaaaaa" noon noon (Request dune None []) oneBook).2 =
    [duneId; "aaaaaaaaaaaaaaaaaaaaa"].
Proof.
  split.
  - apply (request_keeps_listing_order oneBook
             (postHandler "aaaaaaaaaaaaaaaaaaaaa" noon noon
                (Request dune None []) oneBook).2 oneBook_reachable).
    apply (step_create oneBook "aaaaaaaaaaaaaaaaaaaaa" noon noon
             (Request dune None [])); reflexivity.
  - reflexivity.
Defined.



(** X16.  On a reachable shelf, a GET by the id of a stored book answers
    200 with that book, and a GET by a nanoid that is not stored answers
    404. *)
Theorem get_by_id_on_reachable (shelf : Shelf) (id : string) (other : Book) :
  reachable shelf ->
  isNanoid id = true \/ is_Some (shelfGet id shelf) ->
  getHandler (Request other (Some id) []) shelf =
    match shelfGet id shelf with
    | Some book =>
        (Responded (Response 200 "success" None (DataBook (FBook id book))), shelf)
    | None =>
        (Responded (Response 404 "fail" (Some "Buku tidak ditemukan") NoData), shelf)
    end.
Proof.
  intros Hall%reachable_keyed Hid.
  assert (isNanoid id = true) as Hnano.
  { destruct Hid as [? | [book Hget]]; [done |].
    by destruct (shelfGet_Forall _ _ _ _ Hall Hget). }
  apply getHandler_by_id.
  - intros ->. discriminate Hnano.
  - by apply isNanoid_not_all.
  - by apply isNanoid_not_inherited.
Qed.

(** X16 for an id that the shelf with one book does not hold. *)
Lemma get_by_id_on_reachable_witness :
  getHandler (Request ∅ (Some "aaaaaaaaaaaaaaaaaaaaa") []) oneBook =
    (Responded (Response 404 "fail" (Some "Buku tidak ditemukan") NoData), oneBook).
Proof.
  apply (get_by_id_on_reachable oneBook "aaaaaaaaaaaaaaaaaaaaa" ∅ oneBook_reachable).
  left. reflexivity.
Defined.
